(** * public_server: error responses and environment configuration

    A shallow embedding of [public_server/main.py] (the error-response
    normaliser and the exception handlers) and [public_server/utils/env.py]
    (the [Env] typed loaders and [auto_load]), with the properties the
    specification states about them.

    Python strings are modelled as [string] (the UTF-8 bytes of the text),
    dictionaries as [gmap string _], [os.environ] as an association list in
    iteration order, and a call that may raise as a [Result]. *)

From Stdlib Require Import Ascii.
From stdpp Require Import base strings gmap pretty.

Local Open Scope Z_scope.

(** ** Python string operations used by the sources *)

Module Str.

(** [s.startswith(p)] *)
Definition startswith (s p : string) : bool := String.prefix p s.

(** [s[n:]] for [0 <= n] *)
Fixpoint slice_from (n : nat) (s : string) : string :=
  match n, s with
  | O, _ => s
  | S _, EmptyString => EmptyString
  | S n', String _ s' => slice_from n' s'
  end.

(** [sub in s] *)
Fixpoint contains (sub s : string) : bool :=
  String.prefix sub s ||
  match s with
  | EmptyString => false
  | String _ s' => contains sub s'
  end.

(** [s.replace(c, new)] for a one-character pattern [c] *)
Fixpoint replace_char (c : ascii) (new s : string) : string :=
  match s with
  | EmptyString => EmptyString
  | String a s' =>
      if Ascii.eqb a c then new +:+ replace_char c new s'
      else String a (replace_char c new s')
  end.

Definition lower_char (a : ascii) : ascii :=
  let n := nat_of_ascii a in
  if (65 <=? n)%nat && (n <=? 90)%nat then ascii_of_nat (n + 32) else a.

(** [s.lower()] on the ASCII letters. No other letter lowers to one of
    the letters of "true", "1" or "yes", which is all [Env.boolean] asks
    of it. *)
Fixpoint lower (s : string) : string :=
  match s with
  | EmptyString => EmptyString
  | String a s' => String (lower_char a) (lower s')
  end.

(** *** Characters

    A text is held as its UTF-8 encoding, and Python counts and cuts it by
    characters: a character is a byte together with the continuation
    bytes (0x80 to 0xBF) that follow it. *)

Definition is_continuation (a : ascii) : bool :=
  let n := nat_of_ascii a in (128 <=? n)%nat && (n <? 192)%nat.

Definition starts_with_continuation (s : string) : bool :=
  match s with
  | EmptyString => false
  | String a _ => is_continuation a
  end.

(** The characters of [s], in order. *)
Fixpoint chars (s : string) : list string :=
  match s with
  | EmptyString => []
  | String a s' =>
      match chars s' with
      | c :: rest =>
          if starts_with_continuation c then String a c :: rest
          else String a EmptyString :: c :: rest
      | [] => [String a EmptyString]
      end
  end.

Definition join (cs : list string) : string :=
  foldr String.append EmptyString cs.

(** [len(s)] *)
Definition len (s : string) : nat := length (chars s).

(** [s[:n]] for [0 <= n] *)
Definition first_chars (n : nat) (s : string) : string :=
  join (take n (chars s)).

(** [s[-n:]] for [0 < n] *)
Definition last_chars (n : nat) (s : string) : string :=
  join (drop (len s - n) (chars s)).

End Str.

(** ** Values, exceptions and results *)

(** [RespInfo] of [public_server/schemas/response_info.py]: the record the
    handlers read [code], [reason], [message] and [http_status] from. *)
Record RespInfo := mkRespInfo {
  code : Z;
  reason : string;
  message : string;
  http_status : Z
}.

(** An exception instance, by what the sources observe of it:
    [exc.__class__.__name__] and [str(exc)]. *)
Record PyException := mkException {
  exc_class : string;
  exc_str : string
}.

(** The values that reach the sources as [Any]. An object of a class the
    sources know nothing about is given by its class name, its [str()] and
    its truth value. *)
Inductive PyVal :=
| PyNone
| PyBool (b : bool)
| PyInt (z : Z)
| PyStr (s : string)
| PyRespInfo (r : RespInfo)
| PyExc (e : PyException)
| PyObject (cls : string) (str_ : string) (truth : bool).

(** The outcome of a call: a value, or a raised exception. *)
Inductive Result (E A : Type) :=
| Ok (a : A)
| Raise (e : E).
Arguments Ok {E A} a.
Arguments Raise {E A} e.

#[global] Instance Result_ret {E} : MRet (Result E) := fun A a => Ok a.
#[global] Instance Result_bind {E} : MBind (Result E) :=
  fun A B k r =>
    match r with
    | Ok a => k a
    | Raise e => Raise e
    end.

#[global] Instance RespInfo_eq_dec : EqDecision RespInfo.
Proof. solve_decision. Defined.
#[global] Instance PyException_eq_dec : EqDecision PyException.
Proof. solve_decision. Defined.
#[global] Instance PyVal_eq_dec : EqDecision PyVal.
Proof. solve_decision. Defined.

(** [str(v)]. [RespInfo.__str__] is declared in [response_info.py], which
    is not among the sources, and is taken as a parameter. *)
Definition py_str (RespInfo_str : RespInfo -> string) (v : PyVal) : string :=
  match v with
  | PyNone => "None"
  | PyBool true => "True"
  | PyBool false => "False"
  | PyInt z => pretty z
  | PyStr s => s
  | PyRespInfo r => RespInfo_str r
  | PyExc e => exc_str e
  | PyObject _ s _ => s
  end.

(** [bool(v)]; an object that defines neither [__bool__] nor [__len__] is
    true. *)
Definition py_truthy (v : PyVal) : bool :=
  match v with
  | PyNone => false
  | PyBool b => b
  | PyInt z => negb (z =? 0)
  | PyStr s => negb (bool_decide (s = EmptyString))
  | PyRespInfo _ => true
  | PyExc _ => true
  | PyObject _ _ t => t
  end.

(** [isinstance(v, str)] *)
Definition isinstance_str (v : PyVal) : bool :=
  match v with
  | PyStr _ => true
  | _ => false
  end.

(** [isinstance(v, RespInfo)] *)
Definition isinstance_RespInfo (v : PyVal) : bool :=
  match v with
  | PyRespInfo _ => true
  | _ => false
  end.

(** [v is None] *)
Definition is_None (v : PyVal) : bool :=
  match v with
  | PyNone => true
  | _ => false
  end.

(** ** public_server/main.py *)

Module Main.

Inductive JSON :=
| JInt (z : Z)
| JString (s : string).

(** A [JSONResponse]: the body, in key order, and the HTTP status. *)
Record JSONResponse := mkJSONResponse {
  content : list (string * JSON);
  status_code : Z
}.

(** Starlette's [JSONResponse(content, status_code=200)]. *)
Definition JSONResponse_new (body : list (string * JSON))
    (status : option Z) : JSONResponse :=
  {| content := body; status_code := default 200 status |}.

Inductive Request := mkRequest (path : string).

(** A [sqlalchemy.exc.IntegrityError]: the exception and its [code]
    attribute ([Optional[str]]). *)
Record IntegrityError := mkIntegrityError {
  ie_exc : PyException;
  ie_code : option string
}.

(** An [NMCException] carries its own [RespInfo] in [error]. *)
Record NMCException := mkNMCException {
  nmc_exc : PyException;
  nmc_error : PyVal
}.

(** Modelled from the spec: [RespInfo.with_message] of
    [public_server/schemas/response_info.py], which is not among the
    sources. It is a copy-and-replace that returns a new record with the
    message substituted; [integrity_exception_handler] also passes it a
    [reason] keyword, and the spec gives that call's result the reason
    passed, so an optional reason override is part of the model. *)
Definition with_message (self : RespInfo) (msg : string)
    (new_reason : option string) : RespInfo :=
  {| code := code self;
     reason := default (reason self) new_reason;
     message := msg;
     http_status := http_status self |}.

(** Modelled from the spec: the same operation on instances held in an
    object store, where "a new ErrorInfo" and "the original is never
    mutated" can be said: the result is allocated at a fresh address. *)
Definition with_message_obj (heap : gmap nat RespInfo) (self : nat)
    (msg : string) (new_reason : option string)
    : option (gmap nat RespInfo * nat) :=
  match heap !! self with
  | Some e =>
      let l := fresh (dom heap) in
      Some (<[l := with_message e msg new_reason]> heap, l)
  | None => None
  end.

Section Handlers.

(** The catalog entries [RSINFO.REQUEST_VALIDATION_ERROR] and
    [RFInfo.FAILED], and [RespInfo.__str__]: declared in
    [response_info.py]. *)
Variable REQUEST_VALIDATION_ERROR : RespInfo.
Variable FAILED : RespInfo.
Variable RespInfo_str : RespInfo -> string.

Definition response_for_error (error : PyVal)
    (exception : option PyException) (request : option Request)
    : JSONResponse :=
  match error with
  | PyRespInfo r =>
      let error :=
        match exception with
        | Some exc =>
            let msg := exc_class exc +:+ ": " +:+ exc_str exc in
            with_message REQUEST_VALIDATION_ERROR msg None
        | None => r
        end in
      let error :=
        match request with
        | Some _ => error
        | None => error
        end in
      JSONResponse_new
        [("code", JInt (code error));
         ("reason", JString (reason error));
         ("message", JString (message error))]
        (Some (http_status error))
  | _ =>
      JSONResponse_new
        [("code", JInt 0);
         ("reason", JString (py_str RespInfo_str error));
         ("message", JString (py_str RespInfo_str error))]
        None
  end.

Definition validation_exception_handler (request : Request)
    (e : PyException) : Result PyException JSONResponse :=
  Ok (response_for_error (PyRespInfo REQUEST_VALIDATION_ERROR) None None).

Definition assert_exception_handler (request : Request)
    (exc : PyException) : Result PyException JSONResponse :=
  Ok (response_for_error
        (PyRespInfo (with_message FAILED (exc_str exc) None)) None None).

Definition http_exception_handler (request : Request)
    (exc : NMCException) : Result PyException JSONResponse :=
  Ok (response_for_error (nmc_error exc) None None).

Definition integrity_exception_handler (request : Request)
    (exc : IntegrityError) : Result IntegrityError JSONResponse :=
  if decide (ie_code exc = Some "gkpj") then
    Ok (response_for_error
          (PyRespInfo
             (with_message FAILED "数据已存在" (Some "data exist")))
          None None)
  else Raise exc.

End Handlers.

End Main.

(** ** public_server/utils/env.py *)

Module Env.

(** [os.getenv(name, None)] on the process environment. *)
Fixpoint getenv (environ : list (string * string)) (name : string)
    : option string :=
  match environ with
  | [] => None
  | (k, v) :: rest => if decide (k = name) then Some v else getenv rest name
  end.

(** *** The built-in [int(str)], base 10

    Surrounding whitespace is stripped, one sign is allowed, and digits
    may be grouped by single underscores. On ASCII text the whitespace of
    [int()] is tab, line feed, vertical tab, form feed, carriage return
    and space. Only ASCII digits and spaces are modelled, and no limit on
    the number of digits. *)

Definition is_space (a : ascii) : bool :=
  match a with
  | "009" | "010" | "011" | "012" | "013" | " " => true
  | _ => false
  end%char.

Fixpoint lstrip (s : string) : string :=
  match s with
  | EmptyString => EmptyString
  | String a s' => if is_space a then lstrip s' else s
  end.

Fixpoint rstrip (s : string) : string :=
  match s with
  | EmptyString => EmptyString
  | String a s' =>
      match rstrip s' with
      | EmptyString => if is_space a then EmptyString else String a EmptyString
      | r => String a r
      end
  end.

Definition strip (s : string) : string := rstrip (lstrip s).

Definition digit (a : ascii) : option Z := Z.of_nat <$> Ascii.is_nat a.

Fixpoint parse_digits (s : string) (acc : Z) : option Z :=
  match s with
  | EmptyString => None
  | String a s' =>
      match digit a with
      | None => None
      | Some d =>
          let acc' := 10 * acc + d in
          match s' with
          | EmptyString => Some acc'
          | String "_"%char s'' => parse_digits s'' acc'
          | _ => parse_digits s' acc'
          end
      end
  end.

Definition parse_int (s : string) : option Z :=
  match strip s with
  | String "-"%char r => Z.opp <$> parse_digits r 0
  | String "+"%char r => parse_digits r 0
  | t => parse_digits t 0
  end.

Definition ValueError (msg : string) : PyException :=
  {| exc_class := "ValueError"; exc_str := msg |}.

(** [repr(s)] of a text. The quote is the single quote, or the double
    quote when the text holds a single quote and no double quote; the
    quote, the backslash and the control characters are escaped. The bytes
    of a character outside ASCII are kept, as they are for a printable
    character. *)

Definition double_quote : ascii := ascii_of_nat 34.
Definition backslash : ascii := ascii_of_nat 92.

Definition hex_digit (n : nat) : ascii :=
  ascii_of_nat (if (n <? 10)%nat then 48 + n else 87 + n).

Definition repr_quote (s : string) : ascii :=
  if Str.contains "'" s
     && negb (Str.contains (String double_quote EmptyString) s)
  then double_quote else "'"%char.

Definition repr_char (quote a : ascii) : string :=
  let n := nat_of_ascii a in
  if Ascii.eqb a quote || Ascii.eqb a backslash then
    String backslash (String a EmptyString)
  else if (n =? 9)%nat then String backslash "t"
  else if (n =? 10)%nat then String backslash "n"
  else if (n =? 13)%nat then String backslash "r"
  else if (n <? 32)%nat || (n =? 127)%nat then
    String backslash
      (String "x" (String (hex_digit (n / 16))
                     (String (hex_digit (n mod 16)) EmptyString)))
  else String a EmptyString.

Fixpoint repr_body (quote : ascii) (s : string) : string :=
  match s with
  | EmptyString => EmptyString
  | String a s' => repr_char quote a +:+ repr_body quote s'
  end.

Definition py_repr (s : string) : string :=
  let quote := repr_quote s in
  String quote (repr_body quote s +:+ String quote EmptyString).

(** [int(s)]; the message of the [ValueError] is the format
    ["invalid literal for int() with base %d: %.200R"]. *)
Definition py_int (s : string) : Result PyException PyVal :=
  match parse_int s with
  | Some z => Ok (PyInt z)
  | None =>
      Raise (ValueError
               ("invalid literal for int() with base 10: "
                +:+ Str.first_chars 200 (py_repr s)))
  end.

(** *** The typed loaders *)

(** The [log_value] that [general_loader] computes from [value]. *)
Definition redact (contains_secret : bool) (value : PyVal) : PyVal :=
  let log_value := value in
  if contains_secret then
    match log_value with
    | PyStr s =>
        if py_truthy log_value && isinstance_str log_value
           && (10 <? Str.len s)%nat
        then PyStr (Str.first_chars 4 s +:+ "**" +:+ Str.last_chars 4 s)
        else PyStr "**"
    | _ => PyStr "**"
    end
  else log_value.

Definition general_loader (environ : list (string * string))
    (name : string) (loader : string -> Result PyException PyVal)
    (default : PyVal) (description : option string)
    (contains_secret : bool) : Result PyException PyVal :=
  let value_str := getenv environ name in
  value ← match value_str with
          | Some v => loader v
          | None => Ok default
          end;
  let log_value := redact contains_secret value in
  Ok value.

Definition int (environ : list (string * string)) (name : string)
    (default : PyVal) (description : option string)
    (contains_secret : bool) : Result PyException PyVal :=
  general_loader environ name (fun v => py_int v) default description
    contains_secret.

Definition boolean (environ : list (string * string)) (name : string)
    (default : PyVal) (description : option string)
    (contains_secret : bool) : Result PyException PyVal :=
  general_loader environ name
    (fun v => Ok (PyBool (bool_decide (Str.lower v ∈ ["true"; "1"; "yes"]))))
    default description contains_secret.

Section Parsers.

(** [float(str)], [json.loads] and an enumeration class with the
    constructor of its declared base type ([enum_class.mro()[1]]):
    library code, taken as parameters. *)
Variable py_float : string -> Result PyException PyVal.
Variable json_loads : string -> Result PyException PyVal.
Variable enum_base : string -> Result PyException PyVal.
Variable enum_class : PyVal -> Result PyException PyVal.

Definition float (environ : list (string * string)) (name : string)
    (default : PyVal) (description : option string)
    (contains_secret : bool) : Result PyException PyVal :=
  general_loader environ name (fun v => py_float v) default description
    contains_secret.

Definition json (environ : list (string * string)) (name : string)
    (default : PyVal) (description : option string)
    (contains_secret : bool) : Result PyException PyVal :=
  general_loader environ name (fun v => json_loads v) default description
    contains_secret.

Definition enum (environ : list (string * string)) (name : string)
    (default : PyVal) (description : option string)
    (contains_secret : bool) : Result PyException PyVal :=
  general_loader environ name (fun v => b ← enum_base v; enum_class b)
    default description contains_secret.

End Parsers.

(** *** [auto_load] *)

Definition KeyError (key : string) : PyException :=
  {| exc_class := "KeyError"; exc_str := "'" +:+ key +:+ "'" |}.

Definition Exception_ (msg : string) : PyException :=
  {| exc_class := "Exception"; exc_str := msg |}.

Definition sep : string := "__".

Section AutoLoad.

Variable RespInfo_str : RespInfo -> string.

(** [json.loads] and [ast.literal_eval]: library code, taken as
    parameters. *)
Variable json_loads : string -> Result PyException PyVal.
Variable literal_eval : string -> Result PyException PyVal.

(** The value the loop assigns to [settings[key]]: the raw text, or,
    when the key holds a value that is neither [None] nor a string,
    what [json.loads] makes of it and, should that raise, what
    [ast.literal_eval] does. *)
Definition auto_load_value (settings : gmap string PyVal)
    (key value : string) : Result PyException PyVal :=
  match settings !! key with
  | Some old =>
      if negb (is_None old) && negb (isinstance_str old) then
        match json_loads value with
        | Ok v => Ok v
        | Raise _ => literal_eval value
        end
      else Ok (PyStr value)
  | None => Ok (PyStr value)
  end.

(** One turn of the loop over [os.environ.items()]: the settings after
    it, or the exception that leaves the loop. *)
Definition auto_load_entry (settings_prefix : string)
    (settings : gmap string PyVal) (item : string * string)
    : Result PyException (gmap string PyVal) :=
  let '(key, value) := item in
  if negb (Str.startswith key settings_prefix) then Ok settings
  else
    let key :=
      Str.slice_from
        (String.length settings_prefix + String.length sep) key in
    if bool_decide (key = EmptyString) || Str.contains sep key
    then Ok settings
    else
      value ← auto_load_value settings key value;
      Ok (<[key := value]> settings).

(** The loop: the outcome and the settings mapping as it is left. *)
Fixpoint auto_load_loop (settings_prefix : string)
    (settings : gmap string PyVal) (environ : list (string * string))
    : Result PyException () * gmap string PyVal :=
  match environ with
  | [] => (Ok (), settings)
  | item :: rest =>
      match auto_load_entry settings_prefix settings item with
      | Ok settings' => auto_load_loop settings_prefix settings' rest
      | Raise e => (Raise e, settings)
      end
  end.

(** [name] is [None] ([PyNone]) or the namespace name; [settings] is
    [None] or the target mapping; [f_locals] is the caller's frame,
    which stands in for whichever of the two is not given. The result
    is the outcome and the target mapping as it is left. *)
Definition auto_load (environ : list (string * string))
    (f_locals : gmap string PyVal) (name : PyVal)
    (settings : option (gmap string PyVal))
    : Result PyException () * gmap string PyVal :=
  let target := default f_locals settings in
  let resolved :=
    if is_None name then
      match f_locals !! "__name__" with
      | Some n => Ok n
      | None => Raise (KeyError "__name__")
      end
    else Ok name in
  match resolved with
  | Raise e => (Raise e, target)
  | Ok name =>
      if negb (Str.contains "." (py_str RespInfo_str name)) then
        (Raise
           (Exception_
              ("Invalid settings module name "
               +:+ py_str RespInfo_str name
               +:+ ". Please import it with full package name")),
         target)
      else
        let settings_prefix :=
          Str.replace_char "." sep (py_str RespInfo_str name) in
        auto_load_loop settings_prefix target environ
  end.

End AutoLoad.

(** [Env.string]; placed last, as its name hides the type's from here on. *)
Definition string (environ : list (String.string * String.string))
    (name : String.string) (default : PyVal)
    (description : option String.string) (contains_secret : bool)
    : Result PyException PyVal :=
  general_loader environ name (fun v => Ok (PyStr v)) default description
    contains_secret.

End Env.

(** ** public_server/main.py: operation ids *)

Module Routing.

(** A FastAPI [APIRoute], by the attributes the source reads and writes. *)
Record APIRoute := mkAPIRoute {
  path : string;
  name : string;
  operation_id : option string
}.

(** An entry of [application.routes]: an [APIRoute], or a route of another
    class (a plain Starlette route, a mount), which has no operation id. *)
Inductive BaseRoute :=
| IsAPIRoute (r : APIRoute)
| OtherRoute (other_path other_name : string).

(** The body of the loop: [route.operation_id = route.name] on an
    [APIRoute], nothing on any other route. *)
Definition set_operation_id (route : BaseRoute) : BaseRoute :=
  match route with
  | IsAPIRoute r =>
      IsAPIRoute
        {| path := path r; name := name r; operation_id := Some (name r) |}
  | OtherRoute _ _ => route
  end.

(** [application.routes] after the loop has run over it. *)
Definition use_route_names_as_operation_ids (routes : list BaseRoute)
    : list BaseRoute :=
  map set_operation_id routes.

(** The names and the operation ids of the [APIRoute]s, in route order. *)
Definition api_names (routes : list BaseRoute) : list string :=
  omap (fun route =>
          match route with
          | IsAPIRoute r => Some (name r)
          | OtherRoute _ _ => None
          end) routes.

Definition operation_ids (routes : list BaseRoute) : list (option string) :=
  omap (fun route =>
          match route with
          | IsAPIRoute r => Some (operation_id r)
          | OtherRoute _ _ => None
          end) routes.

End Routing.

(** ** Notions for stating what [auto_load] does *)

Module EnvAux.

(** The local key the loop takes out of a variable name:
    [key[len(settings_prefix) + len(sep):]]. *)
Definition local_key_of (settings_prefix key : string) : string :=
  Str.slice_from (String.length settings_prefix + String.length Env.sep) key.

(** The variables the loop goes on to assign: those that pass both
    [continue] guards. *)
Definition is_loaded (settings_prefix key : string) : bool :=
  Str.startswith key settings_prefix
  && negb (bool_decide (local_key_of settings_prefix key = EmptyString)
           || Str.contains Env.sep (local_key_of settings_prefix key)).

(** A mapping whose values are all [None] or strings. *)
Definition plain (settings : gmap string PyVal) : Prop :=
  forall k v, settings !! k = Some v -> is_None v || isinstance_str v = true.

(** A text made of continuation bytes only. *)
Fixpoint all_continuation (s : string) : bool :=
  match s with
  | EmptyString => true
  | String a s' => Str.is_continuation a && all_continuation s'
  end.

(** One character: a byte and the continuation bytes after it. *)
Definition one_char (c : string) : bool :=
  match c with
  | EmptyString => false
  | String _ body => all_continuation body
  end.

(** A character that does not begin with a continuation byte, as every
    character but the first of a text. *)
Definition inner_char (c : string) : Prop :=
  one_char c = true /\ Str.starts_with_continuation c = false.

End EnvAux.

(** ** Sample data

    A catalog and library parsers to run the definitions on. The catalog of
    [response_info.py] is not among the sources; none of the theorems below
    depends on these values. *)

Module Sample.

Definition REQUEST_VALIDATION_ERROR : RespInfo :=
  {| code := 1; reason := "request validation error";
     message := "invalid request"; http_status := 422 |}.

Definition FAILED : RespInfo :=
  {| code := 2; reason := "failed"; message := "failed";
     http_status := 400 |}.

Definition RespInfo_str (r : RespInfo) : string := reason r.

Definition request : Main.Request := Main.mkRequest "/".

Definition duplicate_key : Main.IntegrityError :=
  {| Main.ie_exc :=
       {| exc_class := "IntegrityError"; exc_str := "duplicate entry" |};
     Main.ie_code := Some "gkpj" |}.

Definition other_code : Main.IntegrityError :=
  {| Main.ie_exc :=
       {| exc_class := "IntegrityError"; exc_str := "constraint failed" |};
     Main.ie_code := Some "e3q8" |}.

(** A JSON reader that knows integers only, and a literal reader that
    knows [None], [True] and [False] only. *)
Definition json_loads (s : string) : Result PyException PyVal :=
  match Env.parse_int s with
  | Some z => Ok (PyInt z)
  | None => Raise (Env.ValueError "Expecting value")
  end.

Definition literal_eval (s : string) : Result PyException PyVal :=
  if bool_decide (s = "None") then Ok PyNone
  else if bool_decide (s = "True") then Ok (PyBool true)
  else if bool_decide (s = "False") then Ok (PyBool false)
  else Raise (Env.ValueError "malformed node or string").

(** A float reader for integral texts, and an integer enumeration with
    the members 1 and 2. *)
Definition py_float (s : string) : Result PyException PyVal :=
  match Env.parse_int s with
  | Some z => Ok (PyObject "float" (pretty z +:+ ".0") (negb (z =? 0)))
  | None => Raise (Env.ValueError "could not convert string to float")
  end.

Definition enum_base (s : string) : Result PyException PyVal :=
  Env.py_int s.

Definition enum_class (v : PyVal) : Result PyException PyVal :=
  match v with
  | PyInt 1 => Ok (PyObject "Level" "Level.LOW" true)
  | PyInt 2 => Ok (PyObject "Level" "Level.HIGH" true)
  | _ => Raise (Env.ValueError "not a valid Level")
  end.

Definition nmc_failed : Main.NMCException :=
  {| Main.nmc_exc :=
       {| exc_class := "NMCException"; exc_str := "failed" |};
     Main.nmc_error := PyRespInfo FAILED |}.

(** The routes of an application with a docs page and two endpoints. *)
Definition routes : list Routing.BaseRoute :=
  [Routing.OtherRoute "/docs" "swagger_ui_html";
   Routing.IsAPIRoute
     {| Routing.path := "/"; Routing.name := "root";
        Routing.operation_id := None |};
   Routing.IsAPIRoute
     {| Routing.path := "/users"; Routing.name := "list_users";
        Routing.operation_id := Some "list_users_users_get" |}].

End Sample.

(** ** Properties of public_server/main.py *)

Module MainSpec.

Import Main.

(** C1. For an [error] that is not a [RespInfo] instance,
    [response_for_error] answers with the body
    [{code: 0, reason: str(error), message: str(error)}] and the default
    status 200, whatever [str(error)] is and whatever exception and
    request come with it. *)
Theorem response_for_error_fallback
    (RVE : RespInfo) (RespInfo_str : RespInfo -> string)
    (error : PyVal) (exception : option PyException)
    (request : option Request) :
  isinstance_RespInfo error = false ->
  response_for_error RVE RespInfo_str error exception request =
    {| content :=
         [("code", JInt 0);
          ("reason", JString (py_str RespInfo_str error));
          ("message", JString (py_str RespInfo_str error))];
       status_code := 200 |}.
Proof.
  intros Hnot. destruct error; try reflexivity. discriminate Hnot.
Qed.

Lemma response_for_error_fallback_oops :
  isinstance_RespInfo (PyStr "oops") = false /\
  response_for_error Sample.REQUEST_VALIDATION_ERROR Sample.RespInfo_str
    (PyStr "oops") None None =
    {| content :=
         [("code", JInt 0); ("reason", JString "oops");
          ("message", JString "oops")];
       status_code := 200 |}.
Proof.
  split; [reflexivity |].
  apply (response_for_error_fallback Sample.REQUEST_VALIDATION_ERROR
           Sample.RespInfo_str (PyStr "oops") None None).
  reflexivity.
Defined.

(** C2. [e.with_message(m)] returns a new instance whose [code], [reason]
    and [http_status] are those of [e] and whose [message] is [m]. The
    original instance stays in the store as it was, and so does every
    other instance. *)
Theorem with_message_new_instance
    (heap : gmap nat RespInfo) (self : nat) (e : RespInfo) (m : string) :
  heap !! self = Some e ->
  exists (l : nat) (e' : RespInfo),
    with_message_obj heap self m None = Some (<[l := e']> heap, l) /\
    heap !! l = None /\
    (<[l := e']> heap) !! self = Some e /\
    (forall k, k <> l -> (<[l := e']> heap) !! k = heap !! k) /\
    e' = with_message e m None /\
    code e' = code e /\
    reason e' = reason e /\
    http_status e' = http_status e /\
    message e' = m.
Proof.
  intros Hself.
  assert (Hfresh : heap !! fresh (dom heap) = None).
  { apply not_elem_of_dom, is_fresh. }
  exists (fresh (dom heap)), (with_message e m None).
  unfold with_message_obj. rewrite Hself.
  repeat split; try done.
  - rewrite lookup_insert_ne; [done |].
    intros Heq. rewrite Heq in Hfresh. congruence.
  - intros k Hk. by rewrite lookup_insert_ne.
Qed.

Lemma with_message_new_instance_FAILED :
  ({[ 0%nat := Sample.FAILED ]} : gmap nat RespInfo) !! 0%nat
    = Some Sample.FAILED /\
  exists (l : nat) (e' : RespInfo),
    with_message_obj {[ 0%nat := Sample.FAILED ]} 0 "boom" None
      = Some (<[l := e']> {[ 0%nat := Sample.FAILED ]}, l) /\
    ({[ 0%nat := Sample.FAILED ]} : gmap nat RespInfo) !! l = None /\
    (<[l := e']> {[ 0%nat := Sample.FAILED ]} : gmap nat RespInfo) !! 0%nat
      = Some Sample.FAILED /\
    (forall k, k <> l ->
       (<[l := e']> {[ 0%nat := Sample.FAILED ]} : gmap nat RespInfo) !! k
       = ({[ 0%nat := Sample.FAILED ]} : gmap nat RespInfo) !! k) /\
    e' = with_message Sample.FAILED "boom" None /\
    code e' = code Sample.FAILED /\
    reason e' = reason Sample.FAILED /\
    http_status e' = http_status Sample.FAILED /\
    message e' = "boom".
Proof.
  split; [reflexivity |].
  apply (with_message_new_instance {[ 0%nat := Sample.FAILED ]} 0
           Sample.FAILED "boom").
  reflexivity.
Defined.

(** C3. For a [RespInfo] error and an exception that is not [None],
    [response_for_error] answers with the code, reason and status of the
    catalog's [REQUEST_VALIDATION_ERROR] and the message
    "<exception class name>: <str(exception)>"; nothing of the error passed
    in is kept. *)
Theorem response_for_error_recasts_exception
    (RVE : RespInfo) (RespInfo_str : RespInfo -> string)
    (r : RespInfo) (exc : PyException) (request : option Request) :
  response_for_error RVE RespInfo_str (PyRespInfo r) (Some exc) request =
    {| content :=
         [("code", JInt (code RVE));
          ("reason", JString (reason RVE));
          ("message", JString (exc_class exc +:+ ": " +:+ exc_str exc))];
       status_code := http_status RVE |}.
Proof. destruct request; reflexivity. Qed.

Example response_for_error_boom :
  response_for_error Sample.REQUEST_VALIDATION_ERROR Sample.RespInfo_str
    (PyRespInfo Sample.FAILED)
    (Some {| exc_class := "ValidationError"; exc_str := "boom" |}) None =
    {| content :=
         [("code", JInt 1);
          ("reason", JString "request validation error");
          ("message", JString "ValidationError: boom")];
       status_code := 422 |}.
Proof. reflexivity. Qed.

(** The message the handler sends for driver code "gkpj" is the source's
    literal, not the English wording of the specification. *)
Lemma integrity_message_is_not_english :
  integrity_exception_handler Sample.REQUEST_VALIDATION_ERROR Sample.FAILED
    Sample.RespInfo_str
    Sample.request Sample.duplicate_key <>
  Ok {| content :=
          [("code", JInt (code Sample.FAILED));
           ("reason", JString "data exist");
           ("message", JString "data already exists")];
        status_code := http_status Sample.FAILED |}.
Proof. intros H. discriminate H. Qed.

(** C4, amended. When the driver code of the integrity violation is
    "gkpj", the handler answers with the code and status of [FAILED], the
    reason "data exist" and the message "数据已存在"; for every other driver
    code, and when there is none, it raises the exception it was given. *)
Theorem integrity_exception_handler_spec
    (RVE FAILED : RespInfo) (RespInfo_str : RespInfo -> string)
    (request : Request) (exc : IntegrityError) :
  (ie_code exc = Some "gkpj" ->
   integrity_exception_handler RVE FAILED RespInfo_str request exc =
     Ok {| content :=
             [("code", JInt (code FAILED));
              ("reason", JString "data exist");
              ("message", JString "数据已存在")];
           status_code := http_status FAILED |}) /\
  (ie_code exc <> Some "gkpj" ->
   integrity_exception_handler RVE FAILED RespInfo_str request exc = Raise exc).
Proof.
  unfold integrity_exception_handler.
  split; intros Hcode; case_decide; done.
Qed.

Lemma integrity_exception_handler_samples :
  (Main.ie_code Sample.duplicate_key = Some "gkpj" /\
   integrity_exception_handler Sample.REQUEST_VALIDATION_ERROR Sample.FAILED
    Sample.RespInfo_str
     Sample.request Sample.duplicate_key =
     Ok {| content :=
             [("code", JInt 2);
              ("reason", JString "data exist");
              ("message", JString "数据已存在")];
           status_code := 400 |}) /\
  (Main.ie_code Sample.other_code <> Some "gkpj" /\
   integrity_exception_handler Sample.REQUEST_VALIDATION_ERROR Sample.FAILED
    Sample.RespInfo_str
     Sample.request Sample.other_code = Raise Sample.other_code).
Proof.
  split; split.
  - reflexivity.
  - apply (integrity_exception_handler_spec
             Sample.REQUEST_VALIDATION_ERROR Sample.FAILED
             Sample.RespInfo_str Sample.request Sample.duplicate_key).
    reflexivity.
  - discriminate.
  - apply (integrity_exception_handler_spec
             Sample.REQUEST_VALIDATION_ERROR Sample.FAILED
             Sample.RespInfo_str Sample.request Sample.other_code).
    discriminate.
Defined.

End MainSpec.

(** ** Properties of public_server/utils/env.py *)

Module EnvSpec.

Import Env.

(** *** Strings *)

Lemma append_cons (a : ascii) (s t : String.string) :
  String a s +:+ t = String a (s +:+ t).
Proof. reflexivity. Qed.

Lemma startswith_append (p r : String.string) :
  Str.startswith (p +:+ r) p = true.
Proof.
  unfold Str.startswith. induction p as [| a p IH]; [by destruct r |].
  rewrite append_cons. simpl. by destruct (ascii_dec a a).
Qed.

Lemma slice_from_append (p r : String.string) (n : nat) :
  Str.slice_from (String.length p + n) (p +:+ r) = Str.slice_from n r.
Proof. induction p as [| a p IH]; [reflexivity |]. exact IH. Qed.

Lemma local_key (settings_prefix k : String.string) :
  Str.slice_from (String.length settings_prefix + String.length sep)
    (settings_prefix +:+ sep +:+ k) = k.
Proof.
  rewrite slice_from_append. reflexivity.
Qed.

(** *** The generic loader *)

Lemma general_loader_unset environ name loader default description secret :
  getenv environ name = None ->
  general_loader environ name loader default description secret
    = Ok default.
Proof. intros H. unfold general_loader. by rewrite H. Qed.

Lemma general_loader_set environ name loader default description secret v :
  getenv environ name = Some v ->
  general_loader environ name loader default description secret = loader v.
Proof.
  intros H. unfold general_loader. rewrite H. by destruct (loader v).
Qed.

Section TypedLoaders.

Variable py_float : String.string -> Result PyException PyVal.
Variable json_loads : String.string -> Result PyException PyVal.
Variable enum_base : String.string -> Result PyException PyVal.
Variable enum_class : PyVal -> Result PyException PyVal.

(** C7. Every typed loader returns the default exactly as given when
    the variable is unset, whatever the default is, and otherwise
    returns what its parser makes of the raw text, an exception
    included. [Env.int("X", default=5)] is 5 when X is unset, 42 when X
    is "42", and raises [ValueError] when X is "abc". *)
Theorem typed_loaders_default_or_parse
    (environ : list (String.string * String.string))
    (name : String.string) (default : PyVal)
    (description : option String.string) (secret : bool) :
  (getenv environ name = None ->
   (forall loader,
      general_loader environ name loader default description secret
        = Ok default) /\
   int environ name default description secret = Ok default /\
   float py_float environ name default description secret
     = Ok default /\
   json json_loads environ name default description secret
     = Ok default /\
   string environ name default description secret = Ok default /\
   enum enum_base enum_class environ name default description secret
     = Ok default /\
   boolean environ name default description secret = Ok default) /\
  (forall v, getenv environ name = Some v ->
   (forall loader,
      general_loader environ name loader default description secret
        = loader v) /\
   int environ name default description secret = py_int v /\
   float py_float environ name default description secret
     = py_float v /\
   json json_loads environ name default description secret
     = json_loads v /\
   string environ name default description secret = Ok (PyStr v) /\
   enum enum_base enum_class environ name default description secret
     = (b ← enum_base v; enum_class b) /\
   boolean environ name default description secret
     = Ok (PyBool (bool_decide (Str.lower v ∈ ["true"; "1"; "yes"])))) /\
  (getenv environ "X" = None ->
   int environ "X" (PyInt 5) description secret = Ok (PyInt 5)) /\
  (getenv environ "X" = Some "42" ->
   int environ "X" (PyInt 5) description secret = Ok (PyInt 42)) /\
  (getenv environ "X" = Some "abc" ->
   exists e,
     int environ "X" (PyInt 5) description secret = Raise e /\
     exc_class e = "ValueError").
Proof.
  split; [| split; [| split; [| split]]].
  - intros H. unfold int, float, json, string, enum, boolean.
    repeat split; intros; by apply general_loader_unset.
  - intros v H. unfold int, float, json, string, enum, boolean.
    repeat split; intros;
      by rewrite (general_loader_set _ _ _ _ _ _ v H).
  - intros H. by apply general_loader_unset.
  - intros H. unfold int.
    by rewrite (general_loader_set _ _ _ _ _ _ "42" H).
  - intros H. unfold int.
    rewrite (general_loader_set _ _ _ _ _ _ "abc" H).
    eexists. split; reflexivity.
Qed.

(** C9. The result of the generic loader, and so of every typed
    loader, is the same with the secret flag set and unset. *)
Theorem secret_flag_unobservable
    (environ : list (String.string * String.string))
    (name : String.string) (default : PyVal)
    (description : option String.string) :
  (forall loader,
     general_loader environ name loader default description true
     = general_loader environ name loader default description false) /\
  int environ name default description true
    = int environ name default description false /\
  float py_float environ name default description true
    = float py_float environ name default description false /\
  json json_loads environ name default description true
    = json json_loads environ name default description false /\
  string environ name default description true
    = string environ name default description false /\
  enum enum_base enum_class environ name default description true
    = enum enum_base enum_class environ name default description false /\
  boolean environ name default description true
    = boolean environ name default description false.
Proof.
  assert (Hgen : forall loader,
            general_loader environ name loader default description true
            = general_loader environ name loader default description
                false).
  { intros loader. unfold general_loader.
    destruct (getenv environ name) as [v |]; [| reflexivity].
    destruct (loader v); reflexivity. }
  unfold int, float, json, string, enum, boolean.
  repeat split; intros; apply Hgen.
Qed.

End TypedLoaders.

Lemma typed_loaders_default_or_parse_X :
  (getenv [] "X" = None /\
   int [] "X" (PyInt 5) None false = Ok (PyInt 5)) /\
  (getenv [("X", "42")] "X" = Some "42" /\
   int [("X", "42")] "X" (PyInt 5) None false = Ok (PyInt 42)) /\
  (getenv [("X", "abc")] "X" = Some "abc" /\
   exists e,
     int [("X", "abc")] "X" (PyInt 5) None false = Raise e /\
     exc_class e = "ValueError").
Proof.
  split; [| split]; (split; [reflexivity |]).
  - destruct (typed_loaders_default_or_parse Sample.py_float
                Sample.json_loads Sample.enum_base Sample.enum_class
                [] "X" (PyInt 5) None false) as (_ & _ & H & _).
    apply H. reflexivity.
  - destruct (typed_loaders_default_or_parse Sample.py_float
                Sample.json_loads Sample.enum_base Sample.enum_class
                [("X", "42")] "X" (PyInt 5) None false)
      as (_ & _ & _ & H & _).
    apply H. reflexivity.
  - destruct (typed_loaders_default_or_parse Sample.py_float
                Sample.json_loads Sample.enum_base Sample.enum_class
                [("X", "abc")] "X" (PyInt 5) None false)
      as (_ & _ & _ & _ & H).
    apply H. reflexivity.
Defined.

Example py_int_whitespace :
  Env.py_int (String (ascii_of_nat 9) "42 ") = Ok (PyInt 42) /\
  Env.py_int (String (ascii_of_nat 31) "42")
  = Raise (ValueError "invalid literal for int() with base 10: '\x1f42'") /\
  Env.py_int "it's"
  = Raise (ValueError
             ("invalid literal for int() with base 10: "
              +:+ String double_quote ("it's" +:+ String double_quote
                                                    EmptyString))).
Proof. repeat split. Qed.

(** C8. For a variable that is set to [v], [Env.boolean] is true exactly
    when [v.lower()] is one of "true", "1", "yes", so in any letter case,
    and false for every other text, "false", "0" and the empty text
    among them. *)
Theorem boolean_case_insensitive
    (environ : list (String.string * String.string))
    (name : String.string) (default : PyVal)
    (description : option String.string) (secret : bool)
    (v : String.string) :
  getenv environ name = Some v ->
  (boolean environ name default description secret = Ok (PyBool true) <->
   Str.lower v = "true" \/ Str.lower v = "1" \/ Str.lower v = "yes") /\
  (boolean environ name default description secret = Ok (PyBool false) <->
   ~ (Str.lower v = "true" \/ Str.lower v = "1" \/ Str.lower v = "yes")) /\
  (v ∈ ["true"; "1"; "yes"; "TRUE"; "Yes"; "True"; "YES"; "tRuE"] ->
   boolean environ name default description secret = Ok (PyBool true)) /\
  (v ∈ ["false"; "0"; EmptyString; "no"; "on"; "2"; " true"; "FALSE"] ->
   boolean environ name default description secret = Ok (PyBool false)).
Proof.
  intros Hset. unfold boolean.
  rewrite (general_loader_set _ _ _ _ _ _ v Hset).
  assert (Hmem : Str.lower v ∈ ["true"; "1"; "yes"] <->
            Str.lower v = "true" \/ Str.lower v = "1"
            \/ Str.lower v = "yes").
  { rewrite !elem_of_cons, elem_of_nil. tauto. }
  repeat split.
  - intros H. apply Hmem. case_bool_decide; [done | discriminate H].
  - intros H. apply Hmem in H. by rewrite bool_decide_eq_true_2.
  - intros H Hin. apply Hmem in Hin. by rewrite bool_decide_eq_true_2 in H.
  - intros H. rewrite bool_decide_eq_false_2; [done |].
    intros Hin. by apply H, Hmem.
  - intros Hin. repeat (apply elem_of_cons in Hin as [-> | Hin]);
      [reflexivity .. | by apply elem_of_nil in Hin].
  - intros Hin. repeat (apply elem_of_cons in Hin as [-> | Hin]);
      [reflexivity .. | by apply elem_of_nil in Hin].
Qed.

Lemma boolean_case_insensitive_Yes :
  getenv [("B", "Yes")] "B" = Some "Yes" /\
  boolean [("B", "Yes")] "B" (PyBool false) None false = Ok (PyBool true).
Proof.
  split; [reflexivity |].
  apply (boolean_case_insensitive [("B", "Yes")] "B" (PyBool false) None
           false "Yes").
  - reflexivity.
  - rewrite !elem_of_cons. tauto.
Defined.

(** *** [auto_load] *)

Section AutoLoadSpec.

Variable RespInfo_str : RespInfo -> String.string.
Variable json_loads : String.string -> Result PyException PyVal.
Variable literal_eval : String.string -> Result PyException PyVal.

Local Abbreviation auto_load_value :=
  (auto_load_value json_loads literal_eval).
Local Abbreviation auto_load_entry :=
  (auto_load_entry json_loads literal_eval).
Local Abbreviation auto_load_loop :=
  (auto_load_loop json_loads literal_eval).
Local Abbreviation auto_load :=
  (auto_load RespInfo_str json_loads literal_eval).

Lemma auto_load_entry_other settings_prefix settings key raw :
  Str.startswith key settings_prefix = false ->
  auto_load_entry settings_prefix settings (key, raw) = Ok settings.
Proof. intros H. unfold Env.auto_load_entry. by rewrite H. Qed.

Lemma auto_load_entry_local settings_prefix settings k raw :
  k <> EmptyString ->
  Str.contains sep k = false ->
  auto_load_entry settings_prefix settings
    (settings_prefix +:+ sep +:+ k, raw)
  = (value ← auto_load_value settings k raw;
     Ok (<[k := value]> settings)).
Proof.
  intros Hne Hsep. unfold Env.auto_load_entry.
  rewrite startswith_append, local_key, Hsep.
  by rewrite bool_decide_eq_false_2.
Qed.

Lemma auto_load_entry_skipped settings_prefix settings k raw :
  k = EmptyString \/ Str.contains sep k = true ->
  auto_load_entry settings_prefix settings
    (settings_prefix +:+ sep +:+ k, raw)
  = Ok settings.
Proof.
  intros H. unfold Env.auto_load_entry.
  rewrite startswith_append, local_key.
  destruct H as [-> | ->]; [reflexivity |].
  by rewrite orb_true_r.
Qed.

Lemma auto_load_loop_cons settings_prefix settings item rest :
  auto_load_loop settings_prefix settings (item :: rest)
  = match auto_load_entry settings_prefix settings item with
    | Ok settings' => auto_load_loop settings_prefix settings' rest
    | Raise e => (Raise e, settings)
    end.
Proof. reflexivity. Qed.

Lemma auto_load_loop_filter settings_prefix settings environ :
  auto_load_loop settings_prefix settings environ
  = auto_load_loop settings_prefix settings
      (List.filter (fun item => Str.startswith item.1 settings_prefix)
         environ).
Proof.
  revert settings.
  induction environ as [| [key raw] rest IH]; intros settings;
    [reflexivity |].
  simpl List.filter.
  destruct (Str.startswith key settings_prefix) eqn:Hstart.
  - rewrite !auto_load_loop_cons.
    destruct (auto_load_entry settings_prefix settings (key, raw));
      [apply IH | reflexivity].
  - rewrite auto_load_loop_cons, (auto_load_entry_other _ _ _ _ Hstart).
    apply IH.
Qed.

(** C5, amended. [auto_load] looks only at the variables whose name
    starts, letter case included, with the settings prefix. Of these, a
    variable named prefix, separator, key is loaded under that key when
    the key is not empty and holds no separator, and is skipped when
    the key is empty or holds a separator. With the namespace "a.b",
    hence the prefix "a__b", and the variables a__b__X=5 and
    a__b__Y__Z=9, X alone is loaded. *)
Theorem auto_load_prefixed_keys
    (settings_prefix : String.string)
    (settings : gmap String.string PyVal) :
  (forall environ,
     auto_load_loop settings_prefix settings environ
     = auto_load_loop settings_prefix settings
         (List.filter
            (fun item => Str.startswith item.1 settings_prefix)
            environ)) /\
  (forall key raw,
     Str.startswith key settings_prefix = false ->
     auto_load_entry settings_prefix settings (key, raw) = Ok settings) /\
  (forall k raw,
     k <> EmptyString ->
     Str.contains sep k = false ->
     auto_load_entry settings_prefix settings
       (settings_prefix +:+ sep +:+ k, raw)
     = (value ← auto_load_value settings k raw;
        Ok (<[k := value]> settings))) /\
  (forall k raw,
     k = EmptyString \/ Str.contains sep k = true ->
     auto_load_entry settings_prefix settings
       (settings_prefix +:+ sep +:+ k, raw)
     = Ok settings) /\
  Str.replace_char "." sep "a.b" = "a__b" /\
  auto_load [("a__b__X", "5"); ("a__b__Y__Z", "9")] ∅ (PyStr "a.b")
    (Some ∅)
  = (Ok (), {[ "X" := PyStr "5" ]}).
Proof.
  split; [| split; [| split; [| split; [| split]]]].
  - intros environ. apply auto_load_loop_filter.
  - intros key raw. apply auto_load_entry_other.
  - intros k raw. apply auto_load_entry_local.
  - intros k raw. apply auto_load_entry_skipped.
  - reflexivity.
  - reflexivity.
Qed.

(** C6. When the namespace name, given or read from the caller's
    frame, holds no ".", [auto_load] raises its configuration error
    whatever the process environment is, and the target mapping is left
    as it was. *)
Theorem auto_load_unqualified_name
    (f_locals : gmap String.string PyVal) (name : PyVal)
    (settings : option (gmap String.string PyVal)) :
  (is_None name = false ->
   Str.contains "." (py_str RespInfo_str name) = false ->
   forall environ,
     auto_load environ f_locals name settings
     = (Raise
          (Exception_
             ("Invalid settings module name "
              +:+ py_str RespInfo_str name
              +:+ ". Please import it with full package name")),
        default f_locals settings)) /\
  (forall n,
     is_None name = true ->
     f_locals !! "__name__" = Some n ->
     Str.contains "." (py_str RespInfo_str n) = false ->
     forall environ,
       auto_load environ f_locals name settings
       = (Raise
            (Exception_
               ("Invalid settings module name "
                +:+ py_str RespInfo_str n
                +:+ ". Please import it with full package name")),
          default f_locals settings)).
Proof.
  split.
  - intros Hname Hdot environ. unfold Env.auto_load.
    by rewrite Hname, Hdot.
  - intros n Hname Hlocals Hdot environ. unfold Env.auto_load.
    by rewrite Hname, Hlocals, Hdot.
Qed.


End AutoLoadSpec.

(** The specification's example as it is written, with the prefix "a__b" and
    the variables A__B__X and A__B__Y__Z in upper case: neither name
    starts with the prefix, and X is not loaded. *)
Lemma auto_load_upper_case_not_loaded :
  auto_load Sample.RespInfo_str Sample.json_loads Sample.literal_eval
    [("A__B__X", "5"); ("A__B__Y__Z", "9")] ∅ (PyStr "a.b") (Some ∅)
  = (Ok (), ∅) /\
  (auto_load Sample.RespInfo_str Sample.json_loads Sample.literal_eval
     [("A__B__X", "5"); ("A__B__Y__Z", "9")] ∅ (PyStr "a.b") (Some ∅)).2
    !! "X" = None.
Proof. split; reflexivity. Qed.

(** A name that starts with the prefix is looked at even when no
    separator follows the prefix: the two characters after it are dropped
    unread. *)
Example auto_load_prefix_without_separator :
  auto_load Sample.RespInfo_str Sample.json_loads Sample.literal_eval
    [("a__bQQfoo", "5")] ∅ (PyStr "a.b") (Some ∅)
  = (Ok (), {[ "foo" := PyStr "5" ]}).
Proof. reflexivity. Qed.

Lemma auto_load_prefixed_keys_X :
  ("X" <> EmptyString /\ Str.contains sep "X" = false) /\
  auto_load_entry Sample.json_loads Sample.literal_eval "a__b"
    {[ "X" := PyInt 1 ]} ("a__b" +:+ sep +:+ "X", "5")
  = Ok {[ "X" := PyInt 5 ]}.
Proof.
  split; [split; [discriminate | reflexivity] |].
  destruct (auto_load_prefixed_keys Sample.RespInfo_str Sample.json_loads
              Sample.literal_eval "a__b" {[ "X" := PyInt 1 ]})
    as (_ & _ & H & _).
  rewrite (H "X" "5"); [reflexivity | discriminate | reflexivity].
Defined.

Lemma auto_load_unqualified_name_settings :
  (is_None (PyStr "settings") = false /\
   Str.contains "." (py_str Sample.RespInfo_str (PyStr "settings"))
     = false) /\
  auto_load Sample.RespInfo_str Sample.json_loads Sample.literal_eval
    [("settings__X", "5")] ∅ (PyStr "settings") (Some {[ "X" := PyInt 1 ]})
  = (Raise
       (Exception_
          "Invalid settings module name settings. Please import it with full package name"),
     {[ "X" := PyInt 1 ]}).
Proof.
  split; [split; reflexivity |].
  destruct (auto_load_unqualified_name Sample.RespInfo_str
              Sample.json_loads Sample.literal_eval ∅ (PyStr "settings")
              (Some {[ "X" := PyInt 1 ]})) as [H _].
  apply H; reflexivity.
Defined.


End EnvSpec.

(** ** Further properties of public_server/main.py *)

Module MainExtra.

Import Main.

(** X1. Every response of [response_for_error] has the three fields code,
    reason and message, in this order, and the request passed in has no
    effect on it. *)
Theorem response_for_error_shape
    (RVE : RespInfo) (RespInfo_str : RespInfo -> string)
    (error : PyVal) (exception : option PyException)
    (request : option Request) :
  (content (response_for_error RVE RespInfo_str error exception request)).*1
    = ["code"; "reason"; "message"] /\
  response_for_error RVE RespInfo_str error exception request
    = response_for_error RVE RespInfo_str error exception None.
Proof.
  split.
  - destruct error; reflexivity.
  - destruct error, request; reflexivity.
Qed.

(** X2. The handlers that answer instead of raising. The handler of
    request validation errors answers with the four fields of the catalog's
    [REQUEST_VALIDATION_ERROR] as they are, so nothing of the validation
    error reaches the response. The handler of assertion errors answers
    with the code, reason and status of [FAILED] and with [str(exc)] as the
    message, even when that is empty. The handler of [NMCException] passes
    the [RespInfo] the exception carries through as it is; when the
    exception carries something else, the answer is the fallback with code
    0 and status 200. *)
Theorem exception_handlers_table
    (RVE FAILED : RespInfo) (RespInfo_str : RespInfo -> string)
    (request : Request) :
  (forall e,
     validation_exception_handler RVE RespInfo_str request e =
       Ok {| content :=
               [("code", JInt (code RVE));
                ("reason", JString (reason RVE));
                ("message", JString (message RVE))];
             status_code := http_status RVE |}) /\
  (forall exc,
     assert_exception_handler RVE FAILED RespInfo_str request exc =
       Ok {| content :=
               [("code", JInt (code FAILED));
                ("reason", JString (reason FAILED));
                ("message", JString (exc_str exc))];
             status_code := http_status FAILED |}) /\
  (forall exc r,
     nmc_error exc = PyRespInfo r ->
     http_exception_handler RVE RespInfo_str request exc =
       Ok {| content :=
               [("code", JInt (code r));
                ("reason", JString (reason r));
                ("message", JString (message r))];
             status_code := http_status r |}) /\
  (forall exc,
     isinstance_RespInfo (nmc_error exc) = false ->
     http_exception_handler RVE RespInfo_str request exc =
       Ok {| content :=
               [("code", JInt 0);
                ("reason", JString (py_str RespInfo_str (nmc_error exc)));
                ("message", JString (py_str RespInfo_str (nmc_error exc)))];
             status_code := 200 |}).
Proof.
  split; [reflexivity |]. split; [reflexivity |].
  unfold http_exception_handler. split.
  - intros exc r ->. reflexivity.
  - intros exc Hnot. destruct (nmc_error exc); try reflexivity.
    discriminate Hnot.
Qed.

Lemma exception_handlers_table_FAILED :
  nmc_error Sample.nmc_failed = PyRespInfo Sample.FAILED /\
  http_exception_handler Sample.REQUEST_VALIDATION_ERROR Sample.RespInfo_str
    Sample.request Sample.nmc_failed =
    Ok {| content :=
            [("code", JInt 2); ("reason", JString "failed");
             ("message", JString "failed")];
          status_code := 400 |}.
Proof.
  split; [reflexivity |].
  destruct (exception_handlers_table Sample.REQUEST_VALIDATION_ERROR
              Sample.FAILED Sample.RespInfo_str Sample.request)
    as (_ & _ & H & _).
  apply (H Sample.nmc_failed Sample.FAILED). reflexivity.
Defined.

Import Routing.

Lemma set_operation_id_idemp (route : BaseRoute) :
  set_operation_id (set_operation_id route) = set_operation_id route.
Proof. by destruct route. Qed.

Lemma api_names_set (routes : list BaseRoute) :
  api_names (use_route_names_as_operation_ids routes) = api_names routes.
Proof.
  induction routes as [| [r | p n] rest IH]; [reflexivity | |]; simpl.
  - f_equal. exact IH.
  - exact IH.
Qed.

Lemma operation_ids_set (routes : list BaseRoute) :
  operation_ids (use_route_names_as_operation_ids routes)
  = Some <$> api_names routes.
Proof.
  induction routes as [| [r | p n] rest IH]; [reflexivity | |]; simpl.
  - f_equal. exact IH.
  - exact IH.
Qed.

(** X3. [use_route_names_as_operation_ids] keeps the number and the order
    of the routes; afterwards every [APIRoute] has its own name as
    operation id, with path and name as before, and every other route is
    as it was. Running it a second time changes nothing. *)
Theorem use_route_names_as_operation_ids_spec (routes : list BaseRoute) :
  length (use_route_names_as_operation_ids routes) = length routes /\
  (forall i r,
     routes !! i = Some (IsAPIRoute r) ->
     (use_route_names_as_operation_ids routes) !! i
     = Some (IsAPIRoute
               {| path := path r; name := name r;
                  operation_id := Some (name r) |})) /\
  (forall i p n,
     routes !! i = Some (OtherRoute p n) ->
     (use_route_names_as_operation_ids routes) !! i = Some (OtherRoute p n)) /\
  use_route_names_as_operation_ids (use_route_names_as_operation_ids routes)
  = use_route_names_as_operation_ids routes.
Proof.
  unfold use_route_names_as_operation_ids.
  split; [apply length_map |].
  split; [| split].
  - intros i r H. by rewrite list_lookup_fmap, H.
  - intros i p n H. by rewrite list_lookup_fmap, H.
  - rewrite <- list_fmap_compose. apply list_fmap_ext.
    intros i route _. apply set_operation_id_idemp.
Qed.

Lemma use_route_names_as_operation_ids_spec_sample :
  Sample.routes !! 2%nat
  = Some (IsAPIRoute
            {| path := "/users"; name := "list_users";
               operation_id := Some "list_users_users_get" |}) /\
  (use_route_names_as_operation_ids Sample.routes) !! 2%nat
  = Some (IsAPIRoute
            {| path := "/users"; name := "list_users";
               operation_id := Some "list_users" |}).
Proof.
  split; [reflexivity |].
  destruct (use_route_names_as_operation_ids_spec Sample.routes)
    as (_ & H & _).
  apply (H 2%nat
           {| path := "/users"; name := "list_users";
              operation_id := Some "list_users_users_get" |}).
  reflexivity.
Defined.

(** X4. When the [APIRoute]s have pairwise different names, the operation
    ids that [use_route_names_as_operation_ids] leaves are pairwise
    different too, and none of them is missing; two routes of one name get
    one operation id. *)
Theorem operation_ids_unique (routes : list BaseRoute) :
  (NoDup (api_names routes) ->
   NoDup (operation_ids (use_route_names_as_operation_ids routes))) /\
  (None ∉ operation_ids (use_route_names_as_operation_ids routes)) /\
  (forall i j r1 r2,
     routes !! i = Some (IsAPIRoute r1) ->
     routes !! j = Some (IsAPIRoute r2) ->
     name r1 = name r2 ->
     exists r1' r2',
       (use_route_names_as_operation_ids routes) !! i = Some (IsAPIRoute r1') /\
       (use_route_names_as_operation_ids routes) !! j = Some (IsAPIRoute r2') /\
       operation_id r1' = operation_id r2').
Proof.
  rewrite operation_ids_set. split; [| split].
  - intros Hnd. apply (NoDup_fmap_2 _). exact Hnd.
  - intros Hin. apply list_elem_of_fmap in Hin as (x & Hx & _).
    discriminate Hx.
  - intros i j r1 r2 Hi Hj Hname.
    destruct (use_route_names_as_operation_ids_spec routes) as (_ & H & _).
    eexists _, _. split; [apply (H _ _ Hi) |]. split; [apply (H _ _ Hj) |].
    simpl. by rewrite Hname.
Qed.

Lemma operation_ids_unique_sample :
  NoDup (api_names Sample.routes) /\
  NoDup (operation_ids (use_route_names_as_operation_ids Sample.routes)).
Proof.
  assert (Hnd : NoDup (api_names Sample.routes)).
  { apply (bool_decide_unpack _). reflexivity. }
  split; [exact Hnd |].
  apply (operation_ids_unique Sample.routes). exact Hnd.
Defined.

End MainExtra.

(** ** Further properties of public_server/utils/env.py *)

Module EnvExtra.

(** *** Characters *)

Lemma append_assoc (s t u : string) : (s +:+ t) +:+ u = s +:+ t +:+ u.
Proof.
  induction s as [| a s IH]; [reflexivity |].
  rewrite !EnvSpec.append_cons. by rewrite IH.
Qed.

Lemma join_app (l1 l2 : list string) :
  Str.join (l1 ++ l2) = Str.join l1 +:+ Str.join l2.
Proof.
  induction l1 as [| c l1 IH]; [reflexivity |].
  simpl. rewrite IH. by rewrite append_assoc.
Qed.

Lemma chars_head (a : ascii) (s : string) :
  exists body rest, Str.chars (String a s) = String a body :: rest.
Proof.
  simpl. destruct (Str.chars s) as [| c rest]; [by eexists _, _ |].
  destruct (Str.starts_with_continuation c); by eexists _, _.
Qed.

Lemma chars_cons_inner (a : ascii) (s : string) :
  Str.starts_with_continuation s = false ->
  Str.chars (String a s) = String a EmptyString :: Str.chars s.
Proof.
  intros Hs. destruct s as [| b s]; [reflexivity |].
  destruct (chars_head b s) as (body & rest & Hchars).
  change (Str.chars (String a (String b s)))
    with (match Str.chars (String b s) with
          | c :: rest =>
              if Str.starts_with_continuation c then String a c :: rest
              else String a EmptyString :: c :: rest
          | [] => [String a EmptyString]
          end).
  rewrite Hchars. simpl in Hs |- *. by rewrite Hs.
Qed.

Lemma chars_continuation (body s : string) :
  body <> EmptyString ->
  EnvAux.all_continuation body = true ->
  Str.starts_with_continuation s = false ->
  Str.chars (body +:+ s) = body :: Str.chars s.
Proof.
  induction body as [| b body IH]; [done |].
  intros _ Hall Hs. simpl in Hall. apply andb_prop in Hall as [Hb Hall].
  rewrite EnvSpec.append_cons.
  destruct body as [| b' body].
  - change (EmptyString +:+ s) with s. by apply chars_cons_inner.
  - change (Str.chars (String b (String b' body +:+ s)))
      with (match Str.chars (String b' body +:+ s) with
            | c :: rest =>
                if Str.starts_with_continuation c then String b c :: rest
                else String b EmptyString :: c :: rest
            | [] => [String b EmptyString]
            end).
    rewrite IH by done. simpl in Hall |- *.
    apply andb_prop in Hall as [Hb' _]. by rewrite Hb'.
Qed.

Lemma chars_one_char (c s : string) :
  EnvAux.one_char c = true ->
  Str.starts_with_continuation s = false ->
  Str.chars (c +:+ s) = c :: Str.chars s.
Proof.
  destruct c as [| a body]; [done |]. intros Hall Hs. simpl in Hall.
  rewrite EnvSpec.append_cons.
  destruct body as [| b body].
  - by apply chars_cons_inner.
  - change (Str.chars (String a (String b body +:+ s)))
      with (match Str.chars (String b body +:+ s) with
            | c :: rest =>
                if Str.starts_with_continuation c then String a c :: rest
                else String a EmptyString :: c :: rest
            | [] => [String a EmptyString]
            end).
    rewrite chars_continuation by done.
    simpl in Hall |- *. apply andb_prop in Hall as [Hb _]. by rewrite Hb.
Qed.

Lemma join_inner_start (l : list string) :
  Forall EnvAux.inner_char l ->
  Str.starts_with_continuation (Str.join l) = false.
Proof.
  intros Hl. destruct Hl as [| c l' [Hone Hstart] _]; [reflexivity |].
  destruct c as [| a body]; [done |]. exact Hstart.
Qed.

Lemma chars_join_inner (l : list string) :
  Forall EnvAux.inner_char l -> Str.chars (Str.join l) = l.
Proof.
  induction 1 as [| c l [Hone Hstart] Hl IH]; [reflexivity |].
  simpl. rewrite chars_one_char; [by rewrite IH | done |].
  by apply join_inner_start.
Qed.

Lemma chars_join (c : string) (l : list string) :
  EnvAux.one_char c = true ->
  Forall EnvAux.inner_char l ->
  Str.chars (Str.join (c :: l)) = c :: l.
Proof.
  intros Hone Hl. simpl.
  rewrite chars_one_char; [by rewrite chars_join_inner | done |].
  by apply join_inner_start.
Qed.

Lemma chars_segmented (s : string) :
  match Str.chars s with
  | [] => True
  | c :: rest => EnvAux.one_char c = true /\ Forall EnvAux.inner_char rest
  end.
Proof.
  induction s as [| a s IH]; [done |]. simpl.
  destruct (Str.chars s) as [| c rest]; [done |].
  destruct IH as [Hone Hrest].
  destruct (Str.starts_with_continuation c) eqn:Hstart.
  - split; [| done]. destruct c as [| b body]; [done |].
    simpl in *. by rewrite Hstart, Hone.
  - split; [done |]. by constructor.
Qed.

Lemma join_chars (s : string) : Str.join (Str.chars s) = s.
Proof.
  induction s as [| a s IH]; [reflexivity |]. simpl.
  destruct (Str.chars s) as [| c rest].
  - simpl in *. by rewrite <- IH.
  - destruct (Str.starts_with_continuation c); simpl in *; by rewrite <- IH.
Qed.

(** *** The generic loader *)

(** X5. With the secret flag set, the log form of a value is a text of at
    most ten characters: "**" for everything but a text of more than ten
    characters, and for such a text its first four characters, "**" and its
    last four, which leaves the [len - 8] characters between them out.
    Without the flag, the log form is the value. *)
Theorem redact_hides_the_middle (value : PyVal) :
  Env.redact false value = value /\
  exists t,
    Env.redact true value = PyStr t /\
    (Str.len t <= 10)%nat /\
    (t = "**" /\
     (forall s, value = PyStr s -> (Str.len s <= 10)%nat)
     \/
     exists s mid,
       value = PyStr s /\
       (10 < Str.len s)%nat /\
       s = Str.first_chars 4 s +:+ mid +:+ Str.last_chars 4 s /\
       Str.len mid = (Str.len s - 8)%nat /\
       t = Str.first_chars 4 s +:+ "**" +:+ Str.last_chars 4 s /\
       Str.len t = 10%nat).
Proof.
  split; [reflexivity |].
  destruct value as [| b | z | s | r | e | cls str_ truth];
    try (exists "**"; split; [reflexivity |]; split; [vm_compute; lia |];
         left; split; [reflexivity | intros s' Hs'; discriminate Hs']).
  unfold Env.redact.
  destruct (10 <? Str.len s)%nat eqn:Hlen.
  2:{ apply Nat.ltb_ge in Hlen. rewrite andb_false_r.
      exists "**". split; [reflexivity |]. split; [vm_compute; lia |].
      left. split; [reflexivity |]. by intros s' [= <-]. }
  apply Nat.ltb_lt in Hlen.
  assert (Htruthy : py_truthy (PyStr s) = true).
  { simpl. rewrite bool_decide_eq_false_2; [done |].
    intros ->. vm_compute in Hlen. lia. }
  rewrite Htruthy. simpl andb.
  unfold Str.first_chars, Str.last_chars, Str.len in *.
  pose proof (chars_segmented s) as Hseg.
  pose proof (join_chars s) as Hjoin.
  destruct (Str.chars s) as [| c0 rest] eqn:Hcs; [simpl in Hlen; lia |].
  destruct Hseg as [Hone Hrest]. simpl length in *.
  assert (Hstar : EnvAux.inner_char "*") by (split; reflexivity).
  assert (Hdrop : drop (S (length rest) - 4) (c0 :: rest)
                  = drop (length rest - 4) rest).
  { replace (S (length rest) - 4)%nat with (S (length rest - 4)) by lia.
    reflexivity. }
  assert (Hchars_t :
            Str.chars
              (Str.join (take 4 (c0 :: rest)) +:+ "**"
               +:+ Str.join (drop (S (length rest) - 4) (c0 :: rest)))
            = c0 :: (take 3 rest ++ ["*"; "*"]
                     ++ drop (length rest - 4) rest)).
  { assert (Heq :
              Str.join (take 4 (c0 :: rest)) +:+ "**"
              +:+ Str.join (drop (S (length rest) - 4) (c0 :: rest))
              = Str.join (c0 :: (take 3 rest ++ ["*"; "*"]
                                 ++ drop (length rest - 4) rest))).
    { rewrite Hdrop.
      change (take 4 (c0 :: rest)) with (c0 :: take 3 rest).
      change (Str.join (c0 :: take 3 rest ++ ["*"; "*"]
                        ++ drop (length rest - 4) rest))
        with (c0 +:+ Str.join (take 3 rest ++ ["*"; "*"]
                               ++ drop (length rest - 4) rest)).
      change (Str.join (c0 :: take 3 rest))
        with (c0 +:+ Str.join (take 3 rest)).
      rewrite !join_app, append_assoc. reflexivity. }
    rewrite Heq. apply chars_join; [done |].
    apply Forall_app. split; [by apply Forall_take |].
    apply Forall_app. split; [by repeat constructor |].
    by apply Forall_drop. }
  assert (Hlen_t :
            length
              (Str.chars
                 (Str.join (take 4 (c0 :: rest)) +:+ "**"
                  +:+ Str.join (drop (S (length rest) - 4) (c0 :: rest))))
            = 10%nat).
  { rewrite Hchars_t.
    rewrite length_cons, !length_app, length_take, length_drop.
    simpl length. lia. }
  eexists. split; [reflexivity |]. split; [lia |].
  right. exists s, (Str.join (take (length rest - 7) (drop 3 rest))).
  rewrite !Hcs. simpl length.
  split; [done |]. split; [done |]. split; [| split; [| done]].
  - rewrite <- !join_app, Hdrop.
    rewrite <- Hjoin at 1. f_equal.
    change (take 4 (c0 :: rest)) with (c0 :: take 3 rest).
    rewrite <- app_comm_cons. f_equal.
    rewrite <- (take_drop 3 rest) at 1. f_equal.
    rewrite <- (take_drop (length rest - 7) (drop 3 rest)) at 1.
    f_equal. rewrite drop_drop. f_equal. lia.
  - rewrite chars_join_inner.
    + rewrite length_take, length_drop. lia.
    + by apply Forall_take, Forall_drop.
Qed.

Lemma redact_hides_the_middle_password :
  exists t,
    Env.redact true (PyStr "correct horse battery") = PyStr t /\
    t = "corr**tery".
Proof.
  destruct (redact_hides_the_middle (PyStr "correct horse battery"))
    as (_ & t & Ht & _).
  exists t. split; [exact Ht |].
  vm_compute in Ht. by injection Ht as <-.
Defined.

Lemma getenv_other (front back : list (string * string))
    (k v name : string) :
  k <> name ->
  Env.getenv (front ++ (k, v) :: back) name = Env.getenv (front ++ back) name.
Proof.
  intros Hne. induction front as [| [k' v'] front IH]; simpl.
  - by rewrite decide_False.
  - by rewrite IH.
Qed.

(** X6. A loader reads the environment through the variable it names only:
    two environments that give this variable the same value, or none, give
    the same result, and setting or removing any other variable changes
    nothing. *)
Theorem general_loader_reads_one_variable
    (name : string) (loader : string -> Result PyException PyVal)
    (default : PyVal) (description : option string) (secret : bool) :
  (forall environ1 environ2,
     Env.getenv environ1 name = Env.getenv environ2 name ->
     Env.general_loader environ1 name loader default description secret
     = Env.general_loader environ2 name loader default description secret) /\
  (forall front back k v,
     k <> name ->
     Env.general_loader (front ++ (k, v) :: back) name loader default
       description secret
     = Env.general_loader (front ++ back) name loader default description
         secret).
Proof.
  assert (H : forall environ1 environ2,
            Env.getenv environ1 name = Env.getenv environ2 name ->
            Env.general_loader environ1 name loader default description
              secret
            = Env.general_loader environ2 name loader default description
                secret).
  { intros environ1 environ2 Heq. unfold Env.general_loader.
    by rewrite Heq. }
  split; [exact H |].
  intros front back k v Hne. apply H. by apply getenv_other.
Qed.

Lemma general_loader_reads_one_variable_PORT :
  "HOST" <> "PORT" /\
  Env.general_loader ([] ++ ("HOST", "db") :: [("PORT", "3306")]) "PORT"
    Env.py_int (PyInt 0) None false
  = Env.general_loader ([] ++ [("PORT", "3306")]) "PORT" Env.py_int (PyInt 0)
      None false.
Proof.
  split; [discriminate |].
  apply (general_loader_reads_one_variable "PORT" Env.py_int (PyInt 0) None
           false).
  discriminate.
Defined.

(** X7. A variable that is set to the empty text is not unset: the default
    is not used. [Env.int] raises [ValueError], [Env.boolean] is false
    whatever its default, and [Env.string] is the empty text. *)
Theorem set_to_empty_is_not_unset
    (environ : list (string * string)) (name : string) (default : PyVal)
    (description : option string) (secret : bool) :
  Env.getenv environ name = Some EmptyString ->
  Env.int environ name default description secret
    = Raise (Env.ValueError "invalid literal for int() with base 10: ''") /\
  Env.boolean environ name default description secret = Ok (PyBool false) /\
  Env.string environ name default description secret
    = Ok (PyStr EmptyString).
Proof.
  intros Hset. unfold Env.int, Env.boolean, Env.string.
  by rewrite !(EnvSpec.general_loader_set _ _ _ _ _ _ EmptyString Hset).
Qed.

Lemma set_to_empty_is_not_unset_DEBUG :
  Env.getenv [("DEBUG", EmptyString)] "DEBUG" = Some EmptyString /\
  Env.boolean [("DEBUG", EmptyString)] "DEBUG" (PyBool true) None false
  = Ok (PyBool false).
Proof.
  split; [reflexivity |].
  apply (set_to_empty_is_not_unset [("DEBUG", EmptyString)] "DEBUG"
           (PyBool true) None false).
  reflexivity.
Defined.

(** *** [auto_load] *)

Section AutoLoadExtra.

Variable json_loads : string -> Result PyException PyVal.
Variable literal_eval : string -> Result PyException PyVal.

Local Abbreviation auto_load_value :=
  (Env.auto_load_value json_loads literal_eval).
Local Abbreviation auto_load_entry :=
  (Env.auto_load_entry json_loads literal_eval).
Local Abbreviation auto_load_loop :=
  (Env.auto_load_loop json_loads literal_eval).

Lemma auto_load_entry_unfold settings_prefix settings key raw :
  auto_load_entry settings_prefix settings (key, raw)
  = if EnvAux.is_loaded settings_prefix key then
      value ← auto_load_value settings
                (EnvAux.local_key_of settings_prefix key) raw;
      Ok (<[EnvAux.local_key_of settings_prefix key := value]> settings)
    else Ok settings.
Proof.
  unfold Env.auto_load_entry, EnvAux.is_loaded, EnvAux.local_key_of.
  destruct (Str.startswith key settings_prefix); [| reflexivity].
  simpl. by destruct (_ || _).
Qed.

Lemma auto_load_entry_cases settings_prefix settings key raw settings' :
  auto_load_entry settings_prefix settings (key, raw) = Ok settings' ->
  settings' = settings \/
  EnvAux.is_loaded settings_prefix key = true /\
  exists value,
    auto_load_value settings (EnvAux.local_key_of settings_prefix key) raw
      = Ok value /\
    settings'
      = <[EnvAux.local_key_of settings_prefix key := value]> settings.
Proof.
  rewrite auto_load_entry_unfold.
  destruct (EnvAux.is_loaded settings_prefix key); [| intros [= <-]; by left].
  destruct (auto_load_value _ _ _) as [value |] eqn:Hvalue; [| done].
  intros [= <-]. right. split; [done |]. by exists value.
Qed.

Lemma auto_load_loop_app settings_prefix settings environ1 environ2 :
  auto_load_loop settings_prefix settings (environ1 ++ environ2)
  = match auto_load_loop settings_prefix settings environ1 with
    | (Ok _, settings1) => auto_load_loop settings_prefix settings1 environ2
    | (Raise e, settings1) => (Raise e, settings1)
    end.
Proof.
  revert settings.
  induction environ1 as [| item rest IH]; intros settings; [reflexivity |].
  rewrite <- app_comm_cons, !EnvSpec.auto_load_loop_cons.
  destruct (auto_load_entry settings_prefix settings item); [apply IH | done].
Qed.


(** X9. An exception ends the loop where it is raised: the variables
    before it stay loaded, and the variables after it are not looked at. *)
Theorem auto_load_stops_at_exception
    (settings_prefix : string) (settings settings1 : gmap string PyVal)
    (before after : list (string * string)) (item : string * string)
    (e : PyException) :
  auto_load_loop settings_prefix settings before = (Ok (), settings1) ->
  auto_load_entry settings_prefix settings1 item = Raise e ->
  auto_load_loop settings_prefix settings (before ++ item :: after)
  = (Raise e, settings1).
Proof.
  intros Hbefore Hitem.
  rewrite auto_load_loop_app, Hbefore, EnvSpec.auto_load_loop_cons.
  by rewrite Hitem.
Qed.

(** X11. A setting that holds a string holds a string at the end, whatever
    the environment is and whether the loop ends or raises: variables can
    change the text but not the type. *)
Theorem auto_load_keeps_strings
    (settings_prefix : string) (settings : gmap string PyVal)
    (environ : list (string * string)) (k x : string) :
  settings !! k = Some (PyStr x) ->
  exists y,
    (auto_load_loop settings_prefix settings environ).2 !! k
    = Some (PyStr y).
Proof.
  revert settings x.
  induction environ as [| [key raw] rest IH]; intros settings x Hk.
  { by exists x. }
  rewrite EnvSpec.auto_load_loop_cons.
  destruct (auto_load_entry settings_prefix settings (key, raw))
    as [settings' |] eqn:Hentry; [| by exists x].
  apply auto_load_entry_cases in Hentry
    as [-> | (Hloaded & v & Hvalue & ->)]; [by apply (IH _ x) |].
  destruct (decide (EnvAux.local_key_of settings_prefix key = k))
    as [Heq | Hne].
  - rewrite Heq in *. unfold Env.auto_load_value in Hvalue.
    rewrite Hk in Hvalue. simpl in Hvalue. injection Hvalue as <-.
    apply (IH _ raw). apply lookup_insert_eq.
  - apply (IH _ x). by rewrite lookup_insert_ne.
Qed.


(** X13. Loading the same variable twice. When the key holds a value that
    is neither [None] nor a string and [json.loads] reads the raw text as
    [v], the first load assigns [v]; the second load assigns [v] again when
    [v] is neither [None] nor a string, and the raw text otherwise. *)
Theorem auto_load_entry_twice
    (settings_prefix : string) (settings : gmap string PyVal)
    (k raw : string) (old v : PyVal) :
  k <> EmptyString ->
  Str.contains Env.sep k = false ->
  settings !! k = Some old ->
  is_None old = false ->
  isinstance_str old = false ->
  json_loads raw = Ok v ->
  auto_load_entry settings_prefix settings
    (settings_prefix +:+ Env.sep +:+ k, raw)
  = Ok (<[k := v]> settings) /\
  auto_load_entry settings_prefix (<[k := v]> settings)
    (settings_prefix +:+ Env.sep +:+ k, raw)
  = Ok (<[k := if is_None v || isinstance_str v then PyStr raw else v]>
          settings).
Proof.
  intros Hne Hsep Hold Hnone Hstr Hjson.
  rewrite !(EnvSpec.auto_load_entry_local _ _ _ _ _ _ Hne Hsep).
  unfold Env.auto_load_value.
  rewrite Hold, Hnone, Hstr, Hjson, lookup_insert_eq. simpl.
  split; [reflexivity |].
  destruct (is_None v), (isinstance_str v); simpl;
    by rewrite ?Hjson, insert_insert_eq.
Qed.

(** X15. The reparse of a key that holds a value neither [None] nor a
    string. What [json.loads] reads is assigned whatever
    [ast.literal_eval] would do; when [json.loads] raises, its exception is
    dropped, and either [ast.literal_eval] reads the value that is assigned
    or the exception of [ast.literal_eval] leaves the loop with the mapping
    as it was. *)
Theorem auto_load_reparse_errors
    (settings_prefix : string) (settings : gmap string PyVal)
    (k raw : string) (old : PyVal) :
  k <> EmptyString ->
  Str.contains Env.sep k = false ->
  settings !! k = Some old ->
  is_None old = false ->
  isinstance_str old = false ->
  (forall v,
     json_loads raw = Ok v ->
     auto_load_loop settings_prefix settings
       [(settings_prefix +:+ Env.sep +:+ k, raw)]
     = (Ok (), <[k := v]> settings)) /\
  (forall e v,
     json_loads raw = Raise e ->
     literal_eval raw = Ok v ->
     auto_load_loop settings_prefix settings
       [(settings_prefix +:+ Env.sep +:+ k, raw)]
     = (Ok (), <[k := v]> settings)) /\
  (forall e e',
     json_loads raw = Raise e ->
     literal_eval raw = Raise e' ->
     auto_load_loop settings_prefix settings
       [(settings_prefix +:+ Env.sep +:+ k, raw)]
     = (Raise e', settings)).
Proof.
  intros Hne Hsep Hold Hnone Hstr.
  rewrite EnvSpec.auto_load_loop_cons.
  rewrite (EnvSpec.auto_load_entry_local _ _ _ _ _ _ Hne Hsep).
  unfold Env.auto_load_value. rewrite Hold, Hnone, Hstr. simpl.
  repeat split.
  - by intros v ->.
  - by intros e v -> ->.
  - by intros e e' -> ->.
Qed.

End AutoLoadExtra.

Lemma auto_load_value_plain jl le
    (settings : gmap string PyVal) (k raw : string) :
  EnvAux.plain settings ->
  Env.auto_load_value jl le settings k raw = Ok (PyStr raw).
Proof.
  intros Hplain. unfold Env.auto_load_value.
  destruct (settings !! k) as [old |] eqn:Hk; [| reflexivity].
  apply Hplain in Hk. by destruct (is_None old), (isinstance_str old).
Qed.

Lemma plain_insert (settings : gmap string PyVal) (k raw : string) :
  EnvAux.plain settings -> EnvAux.plain (<[k := PyStr raw]> settings).
Proof.
  intros Hplain k' v'. rewrite lookup_insert.
  case_decide; [by intros [= <-] | apply Hplain].
Qed.

(** X10. On a mapping whose values are all [None] or strings the loop
    never raises and never reads the raw text as anything but text: its
    outcome is the same whatever [json.loads] and [ast.literal_eval] do,
    and the values at the end are again all [None] or strings. *)
Theorem auto_load_plain_settings
    (jl le jl' le' : string -> Result PyException PyVal)
    (settings_prefix : string) (settings : gmap string PyVal)
    (environ : list (string * string)) :
  EnvAux.plain settings ->
  Env.auto_load_loop jl le settings_prefix settings environ
  = Env.auto_load_loop jl' le' settings_prefix settings environ /\
  (Env.auto_load_loop jl le settings_prefix settings environ).1 = Ok () /\
  EnvAux.plain
    (Env.auto_load_loop jl le settings_prefix settings environ).2.
Proof.
  revert settings.
  induction environ as [| [key raw] rest IH]; intros settings Hplain;
    [done |].
  rewrite !EnvSpec.auto_load_loop_cons, !auto_load_entry_unfold.
  destruct (EnvAux.is_loaded settings_prefix key); [| by apply IH].
  rewrite !auto_load_value_plain by done. simpl.
  apply IH. by apply plain_insert.
Qed.

(** X14. What [auto_load] takes from the caller's frame. Leaving the
    target mapping out is the same as passing the frame itself; leaving the
    name out is the same as passing the [__name__] of the frame; and when
    the name is left out and the frame has no [__name__], as the frame of a
    function has none, [KeyError] is raised before the environment is read
    and the target mapping is left as it was. *)
Theorem auto_load_frame_defaults
    (RespInfo_str : RespInfo -> string)
    (jl le : string -> Result PyException PyVal)
    (environ : list (string * string)) (f_locals : gmap string PyVal) :
  (forall name,
     Env.auto_load RespInfo_str jl le environ f_locals name None
     = Env.auto_load RespInfo_str jl le environ f_locals name
         (Some f_locals)) /\
  (forall n settings,
     f_locals !! "__name__" = Some n ->
     Env.auto_load RespInfo_str jl le environ f_locals PyNone settings
     = Env.auto_load RespInfo_str jl le environ f_locals n settings) /\
  (forall settings,
     f_locals !! "__name__" = None ->
     Env.auto_load RespInfo_str jl le environ f_locals PyNone settings
     = (Raise (Env.KeyError "__name__"), default f_locals settings)).
Proof.
  split; [reflexivity |]. split.
  - intros n settings Hname. unfold Env.auto_load. simpl is_None at 1.
    rewrite Hname. by destruct (is_None n).
  - intros settings Hname. unfold Env.auto_load. simpl. by rewrite Hname.
Qed.

(** *** Runs on sample data *)


Lemma auto_load_stops_at_exception_PORT :
  (Env.auto_load_loop Sample.json_loads Sample.literal_eval "a__b"
     {[ "PORT" := PyInt 1 ]} [("a__b__HOST", "db")]
   = (Ok (), {[ "HOST" := PyStr "db"; "PORT" := PyInt 1 ]}) /\
   Env.auto_load_entry Sample.json_loads Sample.literal_eval "a__b"
     {[ "HOST" := PyStr "db"; "PORT" := PyInt 1 ]} ("a__b__PORT", "abc")
   = Raise (Env.ValueError "malformed node or string")) /\
  Env.auto_load_loop Sample.json_loads Sample.literal_eval "a__b"
    {[ "PORT" := PyInt 1 ]}
    ([("a__b__HOST", "db")] ++ ("a__b__PORT", "abc") :: [("a__b__USER", "x")])
  = (Raise (Env.ValueError "malformed node or string"),
     {[ "HOST" := PyStr "db"; "PORT" := PyInt 1 ]}).
Proof.
  split; [split; reflexivity |].
  apply (auto_load_stops_at_exception Sample.json_loads Sample.literal_eval
           "a__b" {[ "PORT" := PyInt 1 ]}
           {[ "HOST" := PyStr "db"; "PORT" := PyInt 1 ]}
           [("a__b__HOST", "db")] [("a__b__USER", "x")]
           ("a__b__PORT", "abc")
           (Env.ValueError "malformed node or string"));
    reflexivity.
Defined.

Lemma auto_load_keeps_strings_HOST :
  ({[ "HOST" := PyStr "localhost" ]} : gmap string PyVal) !! "HOST"
  = Some (PyStr "localhost") /\
  exists y,
    (Env.auto_load_loop Sample.json_loads Sample.literal_eval "a__b"
       {[ "HOST" := PyStr "localhost" ]} [("a__b__HOST", "5")]).2 !! "HOST"
    = Some (PyStr y).
Proof.
  split; [reflexivity |].
  apply (auto_load_keeps_strings Sample.json_loads Sample.literal_eval
           "a__b" {[ "HOST" := PyStr "localhost" ]} [("a__b__HOST", "5")]
           "HOST" "localhost").
  reflexivity.
Defined.


Lemma auto_load_entry_twice_PORT :
  exists settings1,
    Env.auto_load_entry Sample.json_loads Sample.literal_eval "a__b"
      {[ "PORT" := PyInt 1 ]} ("a__b" +:+ Env.sep +:+ "PORT", "5")
    = Ok settings1 /\
    Env.auto_load_entry Sample.json_loads Sample.literal_eval "a__b"
      settings1 ("a__b" +:+ Env.sep +:+ "PORT", "5")
    = Ok settings1.
Proof.
  destruct (auto_load_entry_twice Sample.json_loads Sample.literal_eval
              "a__b" {[ "PORT" := PyInt 1 ]} "PORT" "5" (PyInt 1) (PyInt 5))
    as [H1 H2]; try reflexivity; [discriminate |].
  exists (<[ "PORT" := PyInt 5 ]> {[ "PORT" := PyInt 1 ]}).
  split; [exact H1 | exact H2].
Defined.

Lemma auto_load_plain_settings_sample :
  EnvAux.plain {[ "HOST" := PyStr "localhost"; "PORT" := PyNone ]} /\
  Env.auto_load_loop Sample.json_loads Sample.literal_eval "a__b"
    {[ "HOST" := PyStr "localhost"; "PORT" := PyNone ]}
    [("a__b__PORT", "5")]
  = Env.auto_load_loop (fun _ => Ok PyNone) (fun _ => Ok PyNone) "a__b"
      {[ "HOST" := PyStr "localhost"; "PORT" := PyNone ]}
      [("a__b__PORT", "5")].
Proof.
  assert (H : EnvAux.plain
                {[ "HOST" := PyStr "localhost"; "PORT" := PyNone ]}).
  { intros k v Hk.
    apply lookup_insert_Some in Hk as [[_ <-] | [_ Hk]]; [done |].
    apply lookup_singleton_Some in Hk as [_ <-]. done. }
  split; [exact H |].
  apply (auto_load_plain_settings Sample.json_loads Sample.literal_eval
           (fun _ => Ok PyNone) (fun _ => Ok PyNone) "a__b"
           {[ "HOST" := PyStr "localhost"; "PORT" := PyNone ]}
           [("a__b__PORT", "5")] H).
Defined.

Lemma auto_load_frame_defaults_call :
  (∅ : gmap string PyVal) !! "__name__" = None /\
  Env.auto_load Sample.RespInfo_str Sample.json_loads Sample.literal_eval
    [("a__b__X", "5")] ∅ PyNone (Some ∅)
  = (Raise (Env.KeyError "__name__"), ∅).
Proof.
  split; [reflexivity |].
  destruct (auto_load_frame_defaults Sample.RespInfo_str Sample.json_loads
              Sample.literal_eval [("a__b__X", "5")] ∅) as (_ & _ & H).
  apply (H (Some ∅)). reflexivity.
Defined.

Lemma auto_load_reparse_errors_PORT :
  ("PORT" <> EmptyString /\ Str.contains Env.sep "PORT" = false /\
   ({[ "PORT" := PyInt 1 ]} : gmap string PyVal) !! "PORT"
   = Some (PyInt 1)) /\
  (Sample.json_loads "True" = Raise (Env.ValueError "Expecting value") /\
   Sample.literal_eval "True" = Ok (PyBool true)) /\
  Env.auto_load_loop Sample.json_loads Sample.literal_eval "a__b"
    {[ "PORT" := PyInt 1 ]} [("a__b" +:+ Env.sep +:+ "PORT", "True")]
  = (Ok (), <[ "PORT" := PyBool true ]> {[ "PORT" := PyInt 1 ]}).
Proof.
  split; [split; [discriminate | split; reflexivity] |].
  split; [split; reflexivity |].
  assert (Hne : "PORT" <> EmptyString) by discriminate.
  assert (Hold : ({[ "PORT" := PyInt 1 ]} : gmap string PyVal) !! "PORT"
                 = Some (PyInt 1)) by reflexivity.
  destruct (auto_load_reparse_errors Sample.json_loads Sample.literal_eval
              "a__b" {[ "PORT" := PyInt 1 ]} "PORT" "True" (PyInt 1)
              Hne eq_refl Hold eq_refl eq_refl)
    as (_ & H & _).
  apply (H (Env.ValueError "Expecting value") (PyBool true)); reflexivity.
Defined.

End EnvExtra.
